(** * The frontend API client, [apps/frontend/lib/api.ts]

    A shallow embedding of the request client ([ApiError], [apiRequest] and
    the wrappers [get], [post], [put], [patch], [del]) together with the
    properties its specification states about it.

    The client is a thin layer over three things it does not define: the
    [fetch] function, the [Response] objects it resolves to, and the
    JavaScript runtime ([JSON.stringify], conversion of values to strings and
    to booleans).  These enter the development as parameters; everything the
    source file itself computes is written out. *)

From Stdlib Require Import NArith ZArith String Ascii List Bool DecimalString DecimalN
  DecimalPos Lia.
From stdpp Require Import gmap strings.
Import ListNotations.
Local Open Scope string_scope.

#[local] Set Warnings "-register-all".

(** ** Values *)

(** The values that cross the client: what [response.json()] decodes, and what
    a caller hands to [post], [put] and [patch] as [data].  The type of
    numbers is left to the runtime.  [JObj] lists the own properties of an
    object; a property is found by the first member carrying its name. *)
Inductive json (number : Type) : Type :=
  | JNull
  | JBool (b : bool)
  | JNum (n : number)
  | JStr (s : string)
  | JArr (items : list (json number))
  | JObj (members : list (string * json number)).

Arguments JNull {number}.
Arguments JBool {number} b.
Arguments JNum {number} n.
Arguments JStr {number} s.
Arguments JArr {number} items.
Arguments JObj {number} members.

(** What the client takes from its surroundings besides [fetch]. *)
Class Runtime (number : Type) : Type := {
  (** ToBoolean on a number: false on zero only (JSON has no NaN). *)
  number_truthy : number -> bool;
  (** Number::toString. *)
  number_to_string : number -> string;
  (** [JSON.stringify] on a value of [json]. *)
  JSON_stringify : json number -> string;
  (** [process.env.NEXT_PUBLIC_API_URL], if set. *)
  NEXT_PUBLIC_API_URL : option string
}.

(** The decimal numeral of a status code, as a template literal prints it. *)
Definition decimal (n : N) : string := NilZero.string_of_uint (N.to_uint n).

(** Messages V8 gives to the two [TypeError]s the client can provoke. *)
Definition null_read_message : string :=
  "Cannot read properties of null (reading 'detail')".
Definition to_primitive_message : string :=
  "Cannot convert object to primitive value".

(** ** The error class *)

(** [class ApiError extends Error]: [message] and [name] come from [Error],
    [status] and [data] are the constructor's public parameters; [data] is
    optional. *)
Record ApiError (number : Type) : Type := {
  name : string;
  message : string;
  status : N;
  data : option (json number)
}.

(** What the runtime itself throws or rejects with: an instance of [Error]
    ([TypeError], [SyntaxError], [DOMException], ...) carrying a message, or a
    value that is no [Error] at all.  None of them is an [ApiError], a class
    only this module instantiates. *)
Inductive host_exn : Type :=
  | ErrorInstance (error_name error_message : string)
  | NonError.

(** Everything that can be thrown inside [apiRequest]. *)
Inductive exn (number : Type) : Type :=
  | ThrownApiError (e : ApiError number)
  | ThrownHost (h : host_exn).

Arguments name {number} _.
Arguments message {number} _.
Arguments status {number} _.
Arguments data {number} _.
Arguments ThrownApiError {number} e.
Arguments ThrownHost {number} h.

(** ** Requests and responses *)

(** A value of a header record.  Typed callers store strings; spreading an
    array of pairs leaves a pair under each index. *)
Inductive header_value : Type :=
  | HeaderString (s : string)
  | HeaderPair (header_name header_text : string).

(** [HeadersInit]: a plain record, an array of name/value pairs, or a
    [Headers] instance. *)
Inductive HeadersInit : Type :=
  | HeadersRecord (r : gmap string header_value)
  | HeadersPairs (pairs : list (string * string))
  | HeadersInstance (entries : list (string * string)).

(** [RequestInit], with the members the client touches and the remaining
    ones ([credentials], [mode], [cache], ...) kept by name. *)
Record RequestInit : Type := {
  method : option string;
  headers : option HeadersInit;
  body : option string;
  others : gmap string string
}.

(** What [response.json()] settles to. *)
Inductive json_outcome (number : Type) : Type :=
  | Decoded (v : json number)
  | Undecodable (h : host_exn).

Module Response.
(** A [Response]: its status code and the outcome its [json] method has. *)
Record t (number : Type) : Type := { status : N; json : json_outcome number }.
Arguments status {number} _.
Arguments json {number} _.

(** [response.ok]: the status is in the range 200-299. *)
Definition ok {number} (r : t number) : bool := (200 <=? status r)%N && (status r <=? 299)%N.
End Response.

Arguments Decoded {number} v.
Arguments Undecodable {number} h.

(** What [fetch(url, config)] settles to. *)
Inductive fetch_outcome (number : Type) : Type :=
  | Fulfilled (r : Response.t number)
  | Rejects (h : host_exn).

(** The calls a run makes on its surroundings, in order. *)
Inductive event (number : Type) : Type :=
  | EvFetch (url : string) (config : RequestInit)
  | EvJson (r : Response.t number).

Arguments Fulfilled {number} r.
Arguments Rejects {number} h.
Arguments EvFetch {number} url config.
Arguments EvJson {number} r.

Section Client.

Context {number : Type} `{RT : Runtime number}.

Abbreviation value := (json number).

(** [o[k]] restricted to own properties. *)
Fixpoint own_property (k : string) (members : list (string * value)) : option value :=
  match members with
  | [] => None
  | (k', v) :: rest => if String.eqb k k' then Some v else own_property k rest
  end.

(** ToBoolean: the test behind [?:] and [||]. *)
Definition ToBoolean (v : value) : bool :=
  match v with
  | JNull => false
  | JBool b => b
  | JNum n => number_truthy n
  | JStr s => negb (String.eqb s "")
  | JArr _ | JObj _ => true
  end.

(** ToBoolean on a value that may be [undefined]. *)
Definition truthy (v : option value) : bool :=
  match v with
  | None => false
  | Some v => ToBoolean v
  end.

(** ToString, which [Error]'s constructor applies to its message.  [None]
    stands for the [TypeError] of an object that cannot be made primitive: a
    decoded object has no callable member, so an own [toString] property hides
    [Object.prototype.toString] and the conversion fails.  Arrays are joined
    with commas, [null] items printing as nothing. *)
Fixpoint ToString (v : value) : option string :=
  match v with
  | JNull => Some "null"
  | JBool b => Some (if b then "true" else "false")
  | JNum n => Some (number_to_string n)
  | JStr s => Some s
  | JArr items =>
      let item (x : value) : option string :=
        match x with
        | JNull => Some ""
        | _ => ToString x
        end in
      (fix join (l : list value) : option string :=
         match l with
         | [] => Some ""
         | x :: rest =>
             match item x with
             | None => None
             | Some s =>
                 match rest with
                 | [] => Some s
                 | _ :: _ =>
                     match join rest with
                     | None => None
                     | Some r => Some (s +:+ "," +:+ r)
                     end
                 end
             end
         end) items
  | JObj members =>
      match own_property "toString" members with
      | Some _ => None
      | None => Some "[object Object]"
      end
  end.

(** The object [{}]. *)
Definition empty_init : RequestInit :=
  {| method := None; headers := None; body := None; others := ∅ |}.

Definition set_method (m : string) (o : RequestInit) : RequestInit :=
  {| method := Some m; headers := headers o; body := body o; others := others o |}.
Definition set_body (b : option string) (o : RequestInit) : RequestInit :=
  {| method := method o; headers := headers o; body := b; others := others o |}.
Definition set_headers (h : HeadersInit) (o : RequestInit) : RequestInit :=
  {| method := method o; headers := Some h; body := body o; others := others o |}.

(** [{...options}] for an optional [options]. *)
Definition spread_init (options : option RequestInit) : RequestInit :=
  match options with
  | Some o => o
  | None => empty_init
  end.

(** The own enumerable properties [{...h}] copies: those of a record; the
    indices of an array; none for a [Headers] instance or [undefined]. *)
Fixpoint spread_pairs (i : N) (pairs : list (string * string)) : gmap string header_value :=
  match pairs with
  | [] => ∅
  | (k, v) :: rest => <[decimal i := HeaderPair k v]> (spread_pairs (N.succ i) rest)
  end.

Definition spread_headers (h : option HeadersInit) : gmap string header_value :=
  match h with
  | Some (HeadersRecord r) => r
  | Some (HeadersPairs pairs) => spread_pairs 0 pairs
  | Some (HeadersInstance _) => ∅
  | None => ∅
  end.

(** A computation: the calls made and how it ends, thrown or returned. *)
Definition M (A : Type) : Type := list (event number) * (exn number + A).

Definition ret {A} (a : A) : M A := ([], inr a).
Definition throw {A} (e : exn number) : M A := ([], inl e).
Definition bind {A B} (m : M A) (k : A -> M B) : M B :=
  match m with
  | (t, inl e) => (t, inl e)
  | (t, inr a) => let (t', r) := k a in ((t ++ t')%list, r)
  end.
Definition try_catch {A} (m : M A) (handler : exn number -> M A) : M A :=
  match m with
  | (t, inl e) => let (t', r) := handler e in ((t ++ t')%list, r)
  | (t, inr a) => (t, inr a)
  end.

Notation "'let*' x ':=' m 'in' k" := (bind m (fun x => k))
  (at level 10, x name, m at level 100, k at level 200).

Definition trace {A} (m : M A) : list (event number) := fst m.
Definition outcome {A} (m : M A) : exn number + A := snd m.

(** [await fetch(url, config)], for a given behaviour of [fetch]. *)
Definition await_fetch (fetch : string -> RequestInit -> fetch_outcome number)
    (url : string) (config : RequestInit) : M (Response.t number) :=
  ([EvFetch url config],
   match fetch url config with
   | Fulfilled r => inr r
   | Rejects h => inl (ThrownHost h)
   end).

(** [response.json()]. *)
Definition response_json (response : Response.t number) : M value :=
  ([EvJson response],
   match Response.json response with
   | Decoded v => inr v
   | Undecodable h => inl (ThrownHost h)
   end).

(** [errorData.detail].  Reading a property of [null] throws; an object
    answers with its own property; numbers, booleans, strings and arrays find
    no [detail] on their prototypes and answer [undefined]. *)
Definition get_detail (errorData : value) : M (option value) :=
  match errorData with
  | JNull => throw (ThrownHost (ErrorInstance "TypeError" null_read_message))
  | JObj members => ret (own_property "detail" members)
  | JBool _ | JNum _ | JStr _ | JArr _ => ret None
  end.

(** [a || b]. *)
Definition or_else (a : option value) (b : value) : value :=
  match a with
  | Some v => if ToBoolean v then v else b
  | None => b
  end.

(** ** The client *)

(** [const API_BASE_URL = process.env.NEXT_PUBLIC_API_URL || "http://localhost:8000"]. *)
Definition API_BASE_URL : string :=
  match NEXT_PUBLIC_API_URL with
  | Some s => if String.eqb s "" then "http://localhost:8000" else s
  | None => "http://localhost:8000"
  end.

(** [new ApiError(message, status, data)].  The message goes through
    [super(message)], which converts it to a string and may throw. *)
Definition new_ApiError (message : value) (status : N) (data : option value)
    : M (ApiError number) :=
  match ToString message with
  | Some s => ret {| name := "ApiError"; message := s; status := status; data := data |}
  | None => throw (ThrownHost (ErrorInstance "TypeError" to_primitive_message))
  end.

Definition defaultHeaders : gmap string header_value :=
  {[ "Content-Type" := HeaderString "application/json" ]}.

(** The [config] object [apiRequest] passes to [fetch]:
    [{...options, headers: {...defaultHeaders, ...options.headers}}].
    A later spread overwrites an earlier one key by key. *)
Definition request_config (options : RequestInit) : RequestInit :=
  set_headers (HeadersRecord (spread_headers (headers options) ∪ defaultHeaders)) options.

(** The body of [try] in [apiRequest]. *)
Definition request_body (fetch : string -> RequestInit -> fetch_outcome number)
    (url : string) (config : RequestInit) : M value :=
  let* response := await_fetch fetch url config in
  if negb (Response.ok response) then
    let* errorData :=
      try_catch (response_json response) (fun _ => ret (JObj [])) in
    let* detail := get_detail errorData in
    let* error :=
      new_ApiError
        (or_else detail (JStr ("API error: " +:+ decimal (Response.status response))))
        (Response.status response)
        (Some errorData) in
    throw (ThrownApiError error)
  else if (Response.status response =? 204)%N then
    ret (JObj [])
  else
    response_json response.

(** The [catch] clause of [apiRequest]. *)
Definition request_handler (error : exn number) : M value :=
  match error with
  | ThrownApiError _ => throw error
  | ThrownHost h =>
      let* wrapped :=
        new_ApiError
          (JStr match h with
                | ErrorInstance _ m => m
                | NonError => "Unknown error occurred"
                end)
          0 None in
      throw (ThrownApiError wrapped)
  end.

(** [apiRequest(endpoint, options = {})]. *)
Definition apiRequest (fetch : string -> RequestInit -> fetch_outcome number)
    (endpoint : string) (options : option RequestInit) : M value :=
  let options := spread_init options in
  let url := API_BASE_URL +:+ endpoint in
  let config := request_config options in
  try_catch (request_body fetch url config) request_handler.

(** [data ? JSON.stringify(data) : undefined]. *)
Definition body_of_data (data : option value) : option string :=
  match data with
  | Some d => if ToBoolean d then Some (JSON_stringify d) else None
  | None => None
  end.

(** The options each wrapper builds for [apiRequest]. *)
Definition get_options (options : option RequestInit) : RequestInit :=
  set_method "GET" (spread_init options).
Definition post_options (data : option value) (options : option RequestInit) : RequestInit :=
  set_body (body_of_data data) (set_method "POST" (spread_init options)).
Definition put_options (data : option value) (options : option RequestInit) : RequestInit :=
  set_body (body_of_data data) (set_method "PUT" (spread_init options)).
Definition patch_options (data : option value) (options : option RequestInit) : RequestInit :=
  set_body (body_of_data data) (set_method "PATCH" (spread_init options)).
Definition del_options (options : option RequestInit) : RequestInit :=
  set_method "DELETE" (spread_init options).

Definition get fetch (endpoint : string) (options : option RequestInit) : M value :=
  apiRequest fetch endpoint (Some (get_options options)).
Definition post fetch (endpoint : string) (data : option value)
    (options : option RequestInit) : M value :=
  apiRequest fetch endpoint (Some (post_options data options)).
Definition put fetch (endpoint : string) (data : option value)
    (options : option RequestInit) : M value :=
  apiRequest fetch endpoint (Some (put_options data options)).
Definition patch fetch (endpoint : string) (data : option value)
    (options : option RequestInit) : M value :=
  apiRequest fetch endpoint (Some (patch_options data options)).
Definition del fetch (endpoint : string) (options : option RequestInit) : M value :=
  apiRequest fetch endpoint (Some (del_options options)).

End Client.

Arguments M number A : clear implicits.

Notation "'let*' x ':=' m 'in' k" := (bind m (fun x => k))
  (at level 10, x name, m at level 100, k at level 200).

(** ** Vocabulary of the specification *)

Section Vocabulary.

Context {number : Type} `{RT : Runtime number}.

(** The requests a run sends out: the [config] of each call of [fetch]. *)
Fixpoint requests (t : list (event number)) : list (string * RequestInit) :=
  match t with
  | [] => []
  | EvFetch url config :: rest => (url, config) :: requests rest
  | EvJson _ :: rest => requests rest
  end.

(** The bodies a run tried to decode. *)
Fixpoint decodes (t : list (event number)) : list (Response.t number) :=
  match t with
  | [] => []
  | EvFetch _ _ :: rest => decodes rest
  | EvJson r :: rest => r :: decodes rest
  end.

(** The URL and the [config] a call hands to [fetch]. *)
Definition url_of (endpoint : string) : string := API_BASE_URL +:+ endpoint.
Definition config_of (options : option RequestInit) : RequestInit :=
  request_config (spread_init options).

(** A run sends exactly one request, and [config] is what it hands to
    [fetch]. *)
Definition sends {A} (m : M number A) (config : RequestInit) : Prop :=
  exists url, requests (trace m) = [(url, config)].

(** The [detail] field of a decoded body, when it has one. *)
Definition detail_field (payload : json number) : option (json number) :=
  match payload with
  | JObj members => own_property "detail" members
  | _ => None
  end.

(** What a body that does not decode is replaced by on the error path. *)
Definition error_data (r : Response.t number) : json number :=
  match Response.json r with
  | Decoded v => v
  | Undecodable _ => JObj []
  end.

(** The fallback message of a response with the given status. *)
Definition fallback_message (status : N) : string := "API error: " +:+ decimal status.

(** The message taken from a transport error. *)
Definition transport_message (h : host_exn) : string :=
  match h with
  | ErrorInstance _ m => m
  | NonError => "Unknown error occurred"
  end.

(** The error [apiRequest] raises, as its caller sees it. *)
Definition raises {A} (m : M number A) (e : ApiError number) : Prop :=
  outcome m = inl (ThrownApiError e).

(** The value [apiRequest] resolves to. *)
Definition resolves {A} (m : M number A) (a : A) : Prop :=
  outcome m = inr a.

End Vocabulary.

(** Header names compared as HTTP compares them, ignoring the case of ASCII
    letters. *)
Definition lower_ascii (c : ascii) : ascii :=
  let n := N_of_ascii c in
  if (65 <=? n)%N && (n <=? 90)%N then ascii_of_N (n + 32) else c.

Fixpoint lower (s : string) : string :=
  match s with
  | EmptyString => EmptyString
  | String c rest => String (lower_ascii c) (lower rest)
  end.

Definition same_header (k k' : string) : Prop := lower k = lower k'.

(** Modelled after the specification's words: the caller's value wins over
    whatever the outgoing record holds under a name that differs from the
    caller's at most in case. *)
Definition caller_wins_ignoring_case (caller outgoing : gmap string header_value) : Prop :=
  forall k k' v v',
    caller !! k = Some v -> outgoing !! k' = Some v' -> same_header k k' -> v' = v.

(** The same with names compared letter by letter, as object keys are. *)
Definition caller_wins_exactly (caller outgoing : gmap string header_value) : Prop :=
  forall k v, caller !! k = Some v -> outgoing !! k = Some v.

(** The header record a caller supplies, when it supplies a plain record or
    none at all. *)
Definition supplies (options : option RequestInit)
    (caller : gmap string header_value) : Prop :=
  match headers (spread_init options) with
  | Some (HeadersRecord r) => caller = r
  | Some (HeadersPairs _) | Some (HeadersInstance _) => False
  | None => caller = ∅
  end.

(** ** A runtime with integer numbers

    A concrete runtime on which the client can be run: numbers are integers
    printed in decimal, the environment variable is unset, and
    [JSON.stringify] prints the compact JSON text of a value.  The printing
    of numbers is JavaScript's for integers below 10^21 in magnitude, which
    it writes in plain decimal; larger ones, which it writes with an
    exponent, are not meant to be run here. *)
Module IntegerRuntime.

Definition quote : string := String "034"%char "".
Definition backslash : string := String "092"%char "".

Definition hex_digit (n : N) : string :=
  String (if (n <? 10)%N then ascii_of_N (48 + n) else ascii_of_N (87 + n)) "".

(** QuoteJSONString on one character. *)
Definition escape_char (c : ascii) : string :=
  let n := N_of_ascii c in
  if (n =? 34)%N then backslash +:+ quote
  else if (n =? 92)%N then backslash +:+ backslash
  else if (n =? 8)%N then backslash +:+ "b"
  else if (n =? 9)%N then backslash +:+ "t"
  else if (n =? 10)%N then backslash +:+ "n"
  else if (n =? 12)%N then backslash +:+ "f"
  else if (n =? 13)%N then backslash +:+ "r"
  else if (n <? 32)%N then backslash +:+ "u00" +:+ hex_digit (n / 16) +:+ hex_digit (n mod 16)
  else String c "".

Fixpoint escape (s : string) : string :=
  match s with
  | EmptyString => ""
  | String c rest => escape_char c +:+ escape rest
  end.

Definition quoted (s : string) : string := quote +:+ escape s +:+ quote.

Definition Z_to_string (n : Z) : string := NilZero.string_of_int (Z.to_int n).

Fixpoint stringify (v : json Z) : string :=
  match v with
  | JNull => "null"
  | JBool b => if b then "true" else "false"
  | JNum n => Z_to_string n
  | JStr s => quoted s
  | JArr items =>
      "[" +:+
      (fix elements (l : list (json Z)) : string :=
         match l with
         | [] => ""
         | x :: rest =>
             match rest with
             | [] => stringify x
             | _ :: _ => stringify x +:+ "," +:+ elements rest
             end
         end) items +:+ "]"
  | JObj members =>
      "{" +:+
      (fix properties (l : list (string * json Z)) : string :=
         match l with
         | [] => ""
         | (k, x) :: rest =>
             match rest with
             | [] => quoted k +:+ ":" +:+ stringify x
             | _ :: _ => quoted k +:+ ":" +:+ stringify x +:+ "," +:+ properties rest
             end
         end) members +:+ "}"
  end.

#[export] Instance runtime : Runtime Z := {
  number_truthy n := negb (n =? 0)%Z;
  number_to_string := Z_to_string;
  JSON_stringify := stringify;
  NEXT_PUBLIC_API_URL := None
}.

(** A [fetch] that answers every request with the same response. *)
Definition answering (status : N) (json : json_outcome Z)
    : string -> RequestInit -> fetch_outcome Z :=
  fun _ _ => Fulfilled {| Response.status := status; Response.json := json |}.

(** A [fetch] that never reaches a server. *)
Definition failing (h : host_exn) : string -> RequestInit -> fetch_outcome Z :=
  fun _ _ => Rejects h.


(** The responses and failures of the specification's scenarios, and a few
    more. *)
Definition health_body : json Z := JObj [("status", JStr "healthy")].
Definition user_body : json Z :=
  JObj [("id", JNum 1%Z); ("name", JStr "A"); ("email", JStr "a@x.com")].
Definition new_user : json Z :=
  JObj [("name", JStr "A"); ("email", JStr "a@x.com")].
Definition not_found_body : json Z := JObj [("detail", JStr "Not found")].
Definition empty_detail_body : json Z := JObj [("detail", JStr "")].
Definition unexpected_end : host_exn :=
  ErrorInstance "SyntaxError" "Unexpected end of JSON input".
Definition failed_to_fetch : host_exn :=
  ErrorInstance "TypeError" "Failed to fetch".

Definition lower_case_headers : gmap string header_value :=
  {[ "content-type" := HeaderString "text/plain" ]}.
Definition token_headers : gmap string header_value :=
  {[ "X-Token" := HeaderString "abc" ]}.
Definition with_headers (h : gmap string header_value) : option RequestInit :=
  Some (set_headers (HeadersRecord h) empty_init).

End IntegerRuntime.

(** ** The status component, [apps/frontend/components/ApiStatus.tsx]

    The one caller of the client: on mount it asks [/health] through
    [api.get] and keeps the answer in three pieces of state. *)
Module ApiStatus.
Section Component.

Context {number : Type} `{RT : Runtime number}.

(** [health], [loading] and [error] of [useState]; [null] is [JNull] for
    [health] and [None] for [error]. *)
Record state : Type := {
  health : json number;
  loading : bool;
  error : option string
}.

(** The state the component mounts with. *)
Definition initial : state :=
  {| health := JNull; loading := true; error := None |}.

Definition setHealth (h : json number) (s : state) : state :=
  {| health := h; loading := loading s; error := error s |}.
Definition setLoading (l : bool) (s : state) : state :=
  {| health := health s; loading := l; error := error s |}.
Definition setError (e : option string) (s : state) : state :=
  {| health := health s; loading := loading s; error := e |}.

(** The text the [catch] clause of [checkApiHealth] stores for what it
    caught. *)
Definition describe (err : exn number) : string :=
  match err with
  | ThrownApiError e =>
      "API error: " +:+ message e +:+ " (Status: " +:+ decimal (status e) +:+ ")"
  | ThrownHost (ErrorInstance _ m) => m
  | ThrownHost NonError => "Failed to connect to API"
  end.

(** [checkApiHealth]: the calls it makes and the state its setters leave,
    [try], then [catch], then [finally]. *)
Definition checkApiHealth (fetch : string -> RequestInit -> fetch_outcome number)
    (s : state) : list (event number) * state :=
  let run := get fetch "/health" None in
  (trace run,
   setLoading false
     match outcome run with
     | inr data => setError None (setHealth data s)
     | inl err => setHealth JNull (setError (Some (describe err)) s)
     end).

Definition getStatusColor (status : string) : string :=
  if String.eqb status "connected" || String.eqb status "healthy"
     || String.eqb status "initialized" then
    "text-green-600 dark:text-green-400"
  else if String.eqb status "unavailable" then
    "text-yellow-600 dark:text-yellow-400"
  else
    "text-red-600 dark:text-red-400".

Definition getStatusIcon (status : string) : string :=
  if String.eqb status "connected" || String.eqb status "healthy"
     || String.eqb status "initialized" then
    "✓"
  else if String.eqb status "unavailable" then
    "⚠"
  else
    "✗".

(** The address the error panel names:
    [process.env.NEXT_PUBLIC_API_URL || "http://localhost:8000"]. *)
Definition shown_address : string :=
  match NEXT_PUBLIC_API_URL with
  | Some s => if String.eqb s "" then "http://localhost:8000" else s
  | None => "http://localhost:8000"
  end.

(** Which of its three panels the component returns, with what the panel
    shows of the state. *)
Inductive panel : Type :=
  | Checking
  | Unreachable (shown_error address : string)
  | Status (shown_health : json number).

(** The tests [if (loading)] and [if (error)] in front of the panels. *)
Definition render (s : state) : panel :=
  if loading s then Checking
  else
    match error s with
    | Some e => if negb (String.eqb e "") then Unreachable e shown_address
                else Status (health s)
    | None => Status (health s)
    end.

End Component.

Arguments state number : clear implicits.
Arguments panel number : clear implicits.

End ApiStatus.

(** ** More vocabulary *)

(** The text [n] times, with commas between. *)
Fixpoint comma_separated (text : string) (n : nat) : string :=
  match n with
  | O => ""
  | S O => text
  | S m => text +:+ "," +:+ comma_separated text m
  end.

(** A decoded object that has no member of its own called [toString]. *)
Definition plain_object {number} (v : json number) : Prop :=
  exists members, v = JObj members /\ own_property "toString" members = None.

(** A validation failure as the service reports it: [detail] lists one
    object per offending field. *)
Definition validation_items : list (json Z) :=
  [JObj [("loc", JArr [JStr "body"; JStr "name"]); ("msg", JStr "field required")];
   JObj [("loc", JArr [JStr "body"; JStr "email"]); ("msg", JStr "field required")]].
Definition validation_body : json Z := JObj [("detail", JArr validation_items)].

(** A body whose [detail] is an object with a member called [toString]. *)
Definition unconvertible_body : json Z :=
  JObj [("detail", JObj [("toString", JStr "x")])].

(** Options whose headers are a [Headers] instance, and an array of pairs. *)
Definition instance_options : option RequestInit :=
  Some {| method := None;
          headers := Some (HeadersInstance [("Authorization", "Bearer t")]);
          body := None; others := ∅ |}.
Definition pairs_options : option RequestInit :=
  Some {| method := None;
          headers := Some (HeadersPairs [("Content-Type", "text/plain")]);
          body := None; others := ∅ |}.

(** The service's health report of the component's happy path. *)
Definition health_report : json Z :=
  JObj [("status", JStr "healthy"); ("redis", JStr "connected");
        ("supabase", JStr "unavailable"); ("message", JStr "ok")].

(** * Properties *)

Section Properties.

Context {number : Type} `{RT : Runtime number}.
Implicit Types fetch : string -> RequestInit -> fetch_outcome number.

Abbreviation value := (json number).

Lemma ok_range (r : Response.t number) :
  Response.ok r = true <-> (200 <= Response.status r <= 299)%N.
Proof.
  unfold Response.ok. rewrite andb_true_iff, !N.leb_le. tauto.
Qed.

Lemma not_ok_range (r : Response.t number) :
  Response.ok r = false <-> ~ (200 <= Response.status r <= 299)%N.
Proof.
  rewrite <- ok_range. destruct (Response.ok r); split; congruence.
Qed.

(** How a run goes once [fetch] has resolved: four cases. *)
Lemma apiRequest_fulfilled fetch endpoint options r :
  fetch (url_of endpoint) (config_of options) = Fulfilled r ->
  apiRequest fetch endpoint options =
    try_catch
      (let* response := ([EvFetch (url_of endpoint) (config_of options)], inr r) in
       if negb (Response.ok response) then
         let* errorData :=
           try_catch (response_json response) (fun _ => ret (JObj [])) in
         let* detail := get_detail errorData in
         let* error :=
           new_ApiError
             (or_else detail (JStr (fallback_message (Response.status response))))
             (Response.status response) (Some errorData) in
         throw (ThrownApiError error)
       else if (Response.status response =? 204)%N then ret (JObj [])
       else response_json response)
      request_handler.
Proof.
  intros Hf. unfold apiRequest, request_body, await_fetch.
  fold (url_of endpoint) (config_of options). rewrite Hf. reflexivity.
Qed.

Lemma apiRequest_rejected fetch endpoint options h :
  fetch (url_of endpoint) (config_of options) = Rejects h ->
  apiRequest fetch endpoint options =
    ([EvFetch (url_of endpoint) (config_of options)],
     inl (ThrownApiError
            {| name := "ApiError"; message := transport_message h;
               status := 0; data := None |})).
Proof.
  intros Hf. unfold apiRequest, request_body, await_fetch.
  fold (url_of endpoint) (config_of options). rewrite Hf.
  destruct h; reflexivity.
Qed.

(** A 2xx response other than 204: the run is the decoding of the body,
    seen through the handler. *)
Lemma apiRequest_ok fetch endpoint options r :
  fetch (url_of endpoint) (config_of options) = Fulfilled r ->
  (200 <= Response.status r <= 299)%N ->
  Response.status r <> 204%N ->
  apiRequest fetch endpoint options =
    ([EvFetch (url_of endpoint) (config_of options); EvJson r],
     match Response.json r with
     | Decoded v => inr v
     | Undecodable h =>
         inl (ThrownApiError
                {| name := "ApiError"; message := transport_message h;
                   status := 0; data := None |})
     end).
Proof.
  intros Hf Hok Hnc. rewrite (apiRequest_fulfilled _ _ _ _ Hf).
  apply ok_range in Hok. apply N.eqb_neq in Hnc.
  cbn. rewrite Hok, Hnc. cbn.
  destruct (Response.json r) as [v | [nm msg | ]]; reflexivity.
Qed.

(** A 204 response: nothing but the call of [fetch] happens. *)
Lemma apiRequest_no_content fetch endpoint options r :
  fetch (url_of endpoint) (config_of options) = Fulfilled r ->
  Response.status r = 204%N ->
  apiRequest fetch endpoint options =
    ([EvFetch (url_of endpoint) (config_of options)], inr (JObj [])).
Proof.
  intros Hf Hs. rewrite (apiRequest_fulfilled _ _ _ _ Hf).
  unfold Response.ok. cbn. rewrite Hs. reflexivity.
Qed.

(** C1. A response with a status in [200,299] other than 204 whose body
    decodes as the JSON value [v] makes the request resolve to [v] itself. *)
Theorem request_resolves_to_decoded_body fetch endpoint options r v :
  fetch (url_of endpoint) (config_of options) = Fulfilled r ->
  (200 <= Response.status r <= 299)%N ->
  Response.status r <> 204%N ->
  Response.json r = Decoded v ->
  resolves (apiRequest fetch endpoint options) v.
Proof.
  intros Hf Hok Hnc Hj. unfold resolves.
  rewrite (apiRequest_ok _ _ _ _ Hf Hok Hnc), Hj. reflexivity.
Qed.

(** C3. When [fetch] fails before any response arrives, the error raised has
    status 0, the message of the transport error (the fixed text
    "Unknown error occurred" when what was thrown is no [Error] and so has no
    message to give), and no payload. *)
Theorem transport_failure_raises_status_zero fetch endpoint options h :
  fetch (url_of endpoint) (config_of options) = Rejects h ->
  exists e,
    raises (apiRequest fetch endpoint options) e /\
    status e = 0%N /\
    message e =
      match h with
      | ErrorInstance _ m => m
      | NonError => "Unknown error occurred"
      end /\
    data e = None.
Proof.
  intros Hf. eexists. unfold raises.
  rewrite (apiRequest_rejected _ _ _ _ Hf). cbn.
  split; [reflexivity |]. destruct h; auto.
Qed.

(** C5. A response with status 204 makes the request resolve to the empty
    object, and its body is never decoded, whatever decoding it would have
    given. *)
Theorem no_content_resolves_to_empty_object fetch endpoint options r :
  fetch (url_of endpoint) (config_of options) = Fulfilled r ->
  Response.status r = 204%N ->
  resolves (apiRequest fetch endpoint options) (JObj []) /\
  decodes (trace (apiRequest fetch endpoint options)) = [].
Proof.
  intros Hf Hs. unfold resolves.
  rewrite (apiRequest_no_content _ _ _ _ Hf Hs). split; reflexivity.
Qed.

(** C4. A 2xx response other than 204 whose body does not decode raises an
    error of status 0, and it is the very error a transport failure with the
    same underlying exception raises: nothing in it tells the two apart. *)
Theorem undecodable_body_raises_like_transport_failure
    fetch fetch' endpoint options r h :
  fetch (url_of endpoint) (config_of options) = Fulfilled r ->
  (200 <= Response.status r <= 299)%N ->
  Response.status r <> 204%N ->
  Response.json r = Undecodable h ->
  fetch' (url_of endpoint) (config_of options) = Rejects h ->
  exists e,
    raises (apiRequest fetch endpoint options) e /\
    status e = 0%N /\
    data e = None /\
    raises (apiRequest fetch' endpoint options) e.
Proof.
  intros Hf Hok Hnc Hj Hf'. eexists. unfold raises.
  rewrite (apiRequest_ok _ _ _ _ Hf Hok Hnc), Hj.
  rewrite (apiRequest_rejected _ _ _ _ Hf'). cbn. auto.
Qed.

(** A response outside 2xx: the error built from the body, or, when building
    it throws, the wrapping of that exception. *)
Lemma apiRequest_not_ok fetch endpoint options r :
  fetch (url_of endpoint) (config_of options) = Fulfilled r ->
  ~ (200 <= Response.status r <= 299)%N ->
  apiRequest fetch endpoint options =
    ([EvFetch (url_of endpoint) (config_of options); EvJson r],
     match error_data r with
     | JNull =>
         inl (ThrownApiError
                {| name := "ApiError"; message := null_read_message;
                   status := 0; data := None |})
     | payload =>
         match ToString (or_else (detail_field payload)
                           (JStr (fallback_message (Response.status r)))) with
         | Some s =>
             inl (ThrownApiError
                    {| name := "ApiError"; message := s;
                       status := Response.status r; data := Some payload |})
         | None =>
             inl (ThrownApiError
                    {| name := "ApiError"; message := to_primitive_message;
                       status := 0; data := None |})
         end
     end).
Proof.
  intros Hf Hok. rewrite (apiRequest_fulfilled _ _ _ _ Hf).
  apply not_ok_range in Hok. unfold error_data.
  cbn [bind negb]. rewrite Hok. cbn [negb].
  unfold response_json.
  destruct (Response.json r) as [v | h]; cbn [try_catch ret bind app].
  - destruct v; cbn [get_detail detail_field throw ret bind app];
      try reflexivity;
      unfold new_ApiError;
      match goal with
      | |- context [ToString ?m] => destruct (ToString m)
      end; reflexivity.
  - cbn [get_detail detail_field throw ret bind app own_property].
    unfold new_ApiError.
    match goal with
    | |- context [ToString ?m] => destruct (ToString m) eqn:E
    end; reflexivity.
Qed.

(** C2, as the code has it.  For a response outside [200,299], in three
    cases.  The body does not decode: the error carries the status of the
    response, the message "API error: <status>" and the empty object as
    payload.  The body decodes to something other than [null] whose [detail]
    field is present, truthy and converts to a string: the error carries the
    status of the response, that string as message and the decoded body as
    payload.  The body decodes to something other than [null] whose [detail]
    field is absent or falsy: the error carries the status of the response,
    the message "API error: <status>" and the decoded body as payload.
    Nothing is said of a body that decodes to [null], nor of a truthy
    [detail] that does not convert to a string. *)
Theorem non_ok_response_raises_its_status fetch endpoint options r :
  fetch (url_of endpoint) (config_of options) = Fulfilled r ->
  ~ (200 <= Response.status r <= 299)%N ->
  (forall h, Response.json r = Undecodable h ->
     raises (apiRequest fetch endpoint options)
       {| name := "ApiError";
          message := "API error: " +:+ decimal (Response.status r);
          status := Response.status r;
          data := Some (JObj []) |}) /\
  (forall payload detail text,
     Response.json r = Decoded payload -> payload <> JNull ->
     detail_field payload = Some detail ->
     ToBoolean detail = true -> ToString detail = Some text ->
     raises (apiRequest fetch endpoint options)
       {| name := "ApiError";
          message := text;
          status := Response.status r;
          data := Some payload |}) /\
  (forall payload,
     Response.json r = Decoded payload -> payload <> JNull ->
     truthy (detail_field payload) = false ->
     raises (apiRequest fetch endpoint options)
       {| name := "ApiError";
          message := "API error: " +:+ decimal (Response.status r);
          status := Response.status r;
          data := Some payload |}).
Proof.
  intros Hf Hok. unfold raises.
  rewrite (apiRequest_not_ok _ _ _ _ Hf Hok). unfold error_data.
  split; [| split].
  - intros h ->. reflexivity.
  - intros payload detail text -> Hnull Hd Ht Hs.
    destruct payload; try congruence; try discriminate Hd.
    unfold or_else. rewrite Hd, Ht, Hs. reflexivity.
  - intros payload -> Hnull Hd.
    destruct payload; try congruence; try reflexivity.
    unfold or_else, truthy in *.
    destruct (detail_field (JObj members)); [rewrite Hd |]; reflexivity.
Qed.

(** Whatever [apiRequest] throws is an [ApiError]. *)
Lemma apiRequest_throws_ApiError fetch endpoint options x :
  outcome (apiRequest fetch endpoint options) = inl x ->
  exists e, x = ThrownApiError e /\ name e = "ApiError".
Proof.
  destruct (fetch (url_of endpoint) (config_of options)) as [r | h] eqn:Hf.
  - destruct (Response.ok r) eqn:Hok.
    + apply ok_range in Hok.
      destruct (N.eq_dec (Response.status r) 204%N) as [Hs | Hs].
      * rewrite (apiRequest_no_content _ _ _ _ Hf Hs). discriminate.
      * rewrite (apiRequest_ok _ _ _ _ Hf Hok Hs). cbn.
        destruct (Response.json r); intros [= <-]; eauto.
    + apply not_ok_range in Hok.
      rewrite (apiRequest_not_ok _ _ _ _ Hf Hok). cbn.
      destruct (error_data r);
        try match goal with
            | |- context [ToString ?m] => destruct (ToString m)
            end; intros [= <-]; eauto.
  - rewrite (apiRequest_rejected _ _ _ _ Hf). cbn. intros [= <-]; eauto.
Qed.

(** C8, as the code has it.  A failed request raises an [ApiError], whose
    status and message are therefore set; a payload is present only after a
    response outside [200,299], and is then the decoded body of that
    response, or the empty object when the body did not decode. *)
Theorem failed_request_error_fields fetch endpoint options x :
  outcome (apiRequest fetch endpoint options) = inl x ->
  exists e,
    x = ThrownApiError e /\
    forall payload, data e = Some payload ->
      exists r,
        fetch (url_of endpoint) (config_of options) = Fulfilled r /\
        ~ (200 <= Response.status r <= 299)%N /\
        status e = Response.status r /\
        (Response.json r = Decoded payload \/
         (exists h, Response.json r = Undecodable h) /\ payload = JObj []).
Proof.
  intros Hx.
  destruct (apiRequest_throws_ApiError _ _ _ _ Hx) as [e [-> _]].
  exists e. split; [reflexivity |]. intros payload Hd.
  destruct (fetch (url_of endpoint) (config_of options)) as [r | h] eqn:Hf.
  - exists r. destruct (Response.ok r) eqn:Hok.
    + exfalso. apply ok_range in Hok.
      destruct (N.eq_dec (Response.status r) 204%N) as [Hs | Hs].
      * rewrite (apiRequest_no_content _ _ _ _ Hf Hs) in Hx. discriminate.
      * rewrite (apiRequest_ok _ _ _ _ Hf Hok Hs) in Hx. cbn in Hx.
        destruct (Response.json r); inversion Hx; subst e; discriminate.
    + apply not_ok_range in Hok.
      rewrite (apiRequest_not_ok _ _ _ _ Hf Hok) in Hx. cbn in Hx.
      split; [reflexivity |]. split; [exact Hok |].
      unfold error_data in Hx.
      destruct (Response.json r) as [v | h].
      * destruct v;
          try match type of Hx with
              | context [ToString ?m] => destruct (ToString m)
              end; inversion Hx; subst e; cbn in Hd;
          first [discriminate | inversion Hd; subst payload; auto].
      * match type of Hx with
        | context [ToString ?m] => destruct (ToString m)
        end; inversion Hx; subst e; cbn in Hd;
          first [discriminate | inversion Hd; subst payload; eauto].
  - exfalso. rewrite (apiRequest_rejected _ _ _ _ Hf) in Hx. cbn in Hx.
    inversion Hx; subst e; discriminate.
Qed.

(** Every run calls [fetch] exactly once, with the URL and the [config]
    [apiRequest] computed. *)
Lemma apiRequest_requests fetch endpoint options :
  requests (trace (apiRequest fetch endpoint options)) =
    [(url_of endpoint, config_of options)].
Proof.
  destruct (fetch (url_of endpoint) (config_of options)) as [r | h] eqn:Hf.
  - destruct (Response.ok r) eqn:Hok.
    + apply ok_range in Hok.
      destruct (N.eq_dec (Response.status r) 204%N) as [Hs | Hs].
      * rewrite (apiRequest_no_content _ _ _ _ Hf Hs). reflexivity.
      * rewrite (apiRequest_ok _ _ _ _ Hf Hok Hs). reflexivity.
    + apply not_ok_range in Hok.
      rewrite (apiRequest_not_ok _ _ _ _ Hf Hok). reflexivity.
  - rewrite (apiRequest_rejected _ _ _ _ Hf). reflexivity.
Qed.

Lemma apiRequest_sends fetch endpoint options :
  sends (apiRequest fetch endpoint options) (config_of options).
Proof. exists (url_of endpoint). apply apiRequest_requests. Qed.

(** C9. Each wrapper sends its own method, whatever method the caller's
    options name. *)
Theorem wrappers_send_their_own_method fetch endpoint data options :
  (exists config, sends (get fetch endpoint options) config /\
                  method config = Some "GET") /\
  (exists config, sends (post fetch endpoint data options) config /\
                  method config = Some "POST") /\
  (exists config, sends (put fetch endpoint data options) config /\
                  method config = Some "PUT") /\
  (exists config, sends (patch fetch endpoint data options) config /\
                  method config = Some "PATCH") /\
  (exists config, sends (del fetch endpoint options) config /\
                  method config = Some "DELETE").
Proof.
  repeat split; eexists; (split; [apply apiRequest_sends | reflexivity]).
Qed.

(** The body [post], [put] and [patch] send for [data]. *)
Lemma body_of_data_cases data :
  (truthy data = false -> body_of_data data = None) /\
  (forall d, data = Some d -> ToBoolean d = true ->
     body_of_data data = Some (JSON_stringify d)).
Proof.
  split.
  - destruct data as [d |]; cbn; [intros -> |]; reflexivity.
  - intros d -> Hd. cbn. rewrite Hd. reflexivity.
Qed.

(** C6, as the code has it.  [post], [put] and [patch] send no body when
    [data] is omitted or falsy ([null], [false], zero, the empty string), and
    send the JSON serialization of [data] when [data] is truthy. *)
Theorem wrappers_send_truthy_data_as_body fetch endpoint data options :
  exists by_post by_put by_patch,
    sends (post fetch endpoint data options) by_post /\
    sends (put fetch endpoint data options) by_put /\
    sends (patch fetch endpoint data options) by_patch /\
    (truthy data = false ->
       body by_post = None /\ body by_put = None /\ body by_patch = None) /\
    (forall d, data = Some d -> ToBoolean d = true ->
       body by_post = Some (JSON_stringify d) /\
       body by_put = Some (JSON_stringify d) /\
       body by_patch = Some (JSON_stringify d)).
Proof.
  destruct (body_of_data_cases data) as [Hnone Hsome].
  do 3 eexists. repeat (split; [apply apiRequest_sends |]).
  split.
  - intros H. cbn. rewrite (Hnone H). auto.
  - intros d Hd Ht. cbn. rewrite (Hsome d Hd Ht). auto.
Qed.

(** C7, as the code has it.  With the caller's headers given as a plain
    record (or not at all), the outgoing headers hold every entry of the
    caller unchanged, hold [Content-Type: application/json] when the caller
    has no entry spelled exactly [Content-Type], and hold nothing else.
    Names are compared letter by letter. *)
Theorem default_content_type_unless_same_key fetch endpoint options caller :
  supplies options caller ->
  exists config outgoing,
    sends (apiRequest fetch endpoint options) config /\
    headers config = Some (HeadersRecord outgoing) /\
    caller_wins_exactly caller outgoing /\
    (caller !! "Content-Type" = None ->
       outgoing !! "Content-Type" = Some (HeaderString "application/json")) /\
    (forall k v, outgoing !! k = Some v ->
       caller !! k = Some v \/
       k = "Content-Type" /\ v = HeaderString "application/json").
Proof.
  intros Hc. exists (config_of options), (caller ∪ defaultHeaders).
  split; [apply apiRequest_sends |]. split.
  - unfold config_of, request_config, supplies in *. cbn.
    destruct (headers (spread_init options)) as [[r | ps | es] |];
      cbn; subst; try contradiction; reflexivity.
  - split; [| split].
    + intros k v Hk. apply lookup_union_Some_l. exact Hk.
    + intros Hk. rewrite lookup_union_r by exact Hk. reflexivity.
    + intros k v Hk. apply lookup_union_Some_raw in Hk as [Hk | [_ Hk]].
      * left. exact Hk.
      * right. unfold defaultHeaders in Hk.
        apply lookup_singleton_Some in Hk as [<- <-]. auto.
Qed.

End Properties.

(** ** The handler on its own *)

Section Handler.

Context {number : Type} `{RT : Runtime number}.

(** An [ApiError] reaching the [catch] clause leaves it as it came. *)
Lemma request_handler_rethrows (e : ApiError number) :
  request_handler (ThrownApiError e) = throw (ThrownApiError e).
Proof. reflexivity. Qed.

(** Anything else leaves it wrapped, with status 0 and no payload. *)
Lemma request_handler_wraps (h : host_exn) :
  request_handler (ThrownHost h : exn number) =
    throw (ThrownApiError
             {| name := "ApiError"; message := transport_message h;
                status := 0; data := None |}).
Proof. destruct h; reflexivity. Qed.

(** So an [ApiError] thrown by the body of [try] is the error of the call. *)
Lemma apiRequest_keeps_ApiError fetch endpoint options (e : ApiError number) :
  outcome (request_body fetch (url_of endpoint) (config_of options)) =
    inl (ThrownApiError e) ->
  raises (apiRequest fetch endpoint options) e.
Proof.
  unfold raises, apiRequest. fold (url_of endpoint) (config_of options).
  destruct (request_body fetch (url_of endpoint) (config_of options)) as [t o].
  cbn. intros ->. reflexivity.
Qed.

End Handler.

(** * The specification's scenarios, and the inputs that settle the claims *)

Import IntegerRuntime.

(** Scenario 1: [GET /health] answered 200 with [{"status":"healthy"}]. *)
Example scenario_health :
  resolves (get (answering 200 (Decoded health_body)) "/health" None) health_body.
Proof. reflexivity. Qed.

(** Scenario 2: [POST /users] answered 201 with the created user. *)
Example scenario_create_user :
  resolves (post (answering 201 (Decoded user_body)) "/users" (Some new_user) None)
    user_body /\
  exists config,
    sends (post (answering 201 (Decoded user_body)) "/users" (Some new_user) None)
      config /\
    body config = Some (stringify new_user).
Proof.
  split; [reflexivity |]. eexists. split; [eexists |]; reflexivity.
Qed.

(** Scenario 3: [GET /missing] answered 404 with [{"detail":"Not found"}]. *)
Example scenario_missing :
  raises (get (answering 404 (Decoded not_found_body)) "/missing" None)
    {| name := "ApiError"; message := "Not found"; status := 404;
       data := Some not_found_body |}.
Proof. reflexivity. Qed.

(** Scenario 4: [DELETE /items/5] answered 204 with an empty body. *)
Example scenario_delete :
  resolves (del (answering 204 (Undecodable unexpected_end)) "/items/5" None)
    (JObj []).
Proof. reflexivity. Qed.

(** Scenario 5: the network is unreachable. *)
Example scenario_unreachable :
  raises (get (failing failed_to_fetch) "/health" None)
    {| name := "ApiError"; message := "Failed to fetch"; status := 0;
       data := None |}.
Proof. reflexivity. Qed.

(** A method among the caller's options does not survive a wrapper. *)
Example scenario_method_in_options :
  exists config,
    sends (del (answering 204 (Undecodable unexpected_end)) "/items/5"
             (Some (set_method "GET" empty_init))) config /\
    method config = Some "DELETE".
Proof. eexists. split; [eexists |]; reflexivity. Qed.

(** The request URL is the base URL followed by the endpoint. *)
Example scenario_url :
  requests (trace (get (failing failed_to_fetch) "/health" None)) =
    [("http://localhost:8000/health",
      config_of (Some (get_options None)))].
Proof. reflexivity. Qed.

Lemma request_resolves_to_decoded_body_witness :
  (200 <= 200 <= 299)%N /\ 200%N <> 204%N /\
  resolves (apiRequest (answering 200 (Decoded health_body)) "/health" None)
    health_body.
Proof.
  split; [lia |]. split; [discriminate |].
  apply (request_resolves_to_decoded_body
           (answering 200 (Decoded health_body)) "/health" None
           {| Response.status := 200; Response.json := Decoded health_body |}).
  - reflexivity.
  - cbn. lia.
  - discriminate.
  - reflexivity.
Defined.

Lemma transport_failure_raises_status_zero_witness :
  exists e,
    raises (apiRequest (failing failed_to_fetch) "/health" None) e /\
    status e = 0%N /\ message e = "Failed to fetch" /\ data e = None.
Proof.
  apply (transport_failure_raises_status_zero
           (failing failed_to_fetch) "/health" None failed_to_fetch).
  reflexivity.
Defined.

Lemma undecodable_body_raises_like_transport_failure_witness :
  (200 <= 200 <= 299)%N /\ 200%N <> 204%N /\
  exists e,
    raises (apiRequest (answering 200 (Undecodable unexpected_end)) "/health" None) e /\
    status e = 0%N /\ data e = None /\
    raises (apiRequest (failing unexpected_end) "/health" None) e.
Proof.
  split; [lia |]. split; [discriminate |].
  apply (undecodable_body_raises_like_transport_failure
           (answering 200 (Undecodable unexpected_end)) (failing unexpected_end)
           "/health" None
           {| Response.status := 200; Response.json := Undecodable unexpected_end |}
           unexpected_end).
  - reflexivity.
  - cbn. lia.
  - discriminate.
  - reflexivity.
  - reflexivity.
Defined.

Lemma no_content_resolves_to_empty_object_witness :
  resolves (apiRequest (answering 204 (Decoded user_body)) "/items/5" None)
    (JObj []) /\
  decodes (trace (apiRequest (answering 204 (Decoded user_body)) "/items/5" None)) = [].
Proof.
  apply (no_content_resolves_to_empty_object
           (answering 204 (Decoded user_body)) "/items/5" None
           {| Response.status := 204; Response.json := Decoded user_body |}).
  - reflexivity.
  - reflexivity.
Defined.

Lemma non_ok_response_raises_its_status_witness :
  ~ (200 <= 404 <= 299)%N /\
  raises (apiRequest (answering 404 (Decoded not_found_body)) "/missing" None)
    {| name := "ApiError"; message := "Not found"; status := 404;
       data := Some not_found_body |}.
Proof.
  split; [lia |].
  destruct (non_ok_response_raises_its_status
              (answering 404 (Decoded not_found_body)) "/missing" None
              {| Response.status := 404; Response.json := Decoded not_found_body |}
              eq_refl ltac:(cbn; lia))
    as [_ [Hdetail _]].
  apply (Hdetail not_found_body (JStr "Not found") "Not found");
    [reflexivity | discriminate | reflexivity | reflexivity | reflexivity].
Defined.

(** C2 fails as stated: a 404 whose body is [{"detail": ""}] has a [detail]
    field, of string value [""], and the message raised is the fallback. *)
Lemma empty_detail_gets_fallback_message :
  detail_field empty_detail_body = Some (JStr "") /\
  raises (apiRequest (answering 404 (Decoded empty_detail_body)) "/missing" None)
    {| name := "ApiError"; message := "API error: 404"; status := 404;
       data := Some empty_detail_body |} /\
  ~ (forall e,
       raises (apiRequest (answering 404 (Decoded empty_detail_body)) "/missing" None) e ->
       message e = "").
Proof.
  split; [reflexivity |]. split; [reflexivity |].
  intros H. specialize (H _ eq_refl). discriminate H.
Qed.

Lemma failed_request_error_fields_witness :
  outcome (apiRequest (answering 404 (Decoded not_found_body)) "/missing" None) =
    inl (ThrownApiError
           {| name := "ApiError"; message := "Not found"; status := 404;
              data := Some not_found_body |}) /\
  exists r,
    answering 404 (Decoded not_found_body)
      (url_of "/missing") (config_of None) = Fulfilled r /\
    Response.status r = 404%N /\
    Response.json r = Decoded not_found_body.
Proof.
  split; [reflexivity |].
  destruct (failed_request_error_fields
              (answering 404 (Decoded not_found_body)) "/missing" None
              (ThrownApiError
                 {| name := "ApiError"; message := "Not found"; status := 404;
                    data := Some not_found_body |})
              eq_refl)
    as [e [He Hpayload]].
  injection He as <-.
  destruct (Hpayload not_found_body eq_refl) as [r [Hf [_ [Hs Hj]]]].
  exists r. split; [exact Hf |]. split; [symmetry; exact Hs |].
  destruct Hj as [Hj | [_ Hj]]; [exact Hj | discriminate Hj].
Defined.

(** C8 fails as stated: a 502 whose body does not decode raises an error that
    has a payload, the empty object, though no body was decoded. *)
Lemma undecodable_error_body_has_payload :
  raises (apiRequest (answering 502 (Undecodable unexpected_end)) "/items" None)
    {| name := "ApiError"; message := "API error: 502"; status := 502;
       data := Some (JObj []) |} /\
  ~ (forall e,
       raises (apiRequest (answering 502 (Undecodable unexpected_end)) "/items" None) e ->
       data e <> None ->
       exists v : json Z, Undecodable unexpected_end = Decoded v).
Proof.
  split; [reflexivity |].
  intros H. destruct (H _ eq_refl) as [v Hv]; [discriminate | discriminate Hv].
Qed.

Lemma wrappers_send_truthy_data_as_body_witness :
  ToBoolean new_user = true /\
  exists by_post,
    sends (post (answering 201 (Decoded user_body)) "/users" (Some new_user) None)
      by_post /\
    body by_post = Some (stringify new_user).
Proof.
  split; [reflexivity |].
  destruct (wrappers_send_truthy_data_as_body
              (answering 201 (Decoded user_body)) "/users" (Some new_user) None)
    as [by_post [by_put [by_patch [Hpost [_ [_ [_ Hsome]]]]]]].
  exists by_post. split; [exact Hpost |].
  destruct (Hsome new_user eq_refl eq_refl) as [Hbody _]. exact Hbody.
Defined.

(** C6 fails as stated: [post("/flags", false)] is given [data], whose JSON
    serialization is [false], and sends no body. *)
Lemma falsy_data_is_not_sent :
  JSON_stringify (JBool false : json Z) = "false" /\
  exists config,
    sends (post (answering 200 (Decoded health_body)) "/flags" (Some (JBool false)) None)
      config /\
    body config = None /\
    body config <> Some (JSON_stringify (JBool false : json Z)).
Proof.
  split; [reflexivity |]. eexists. split; [eexists; reflexivity |].
  split; [reflexivity | discriminate].
Qed.

Lemma default_content_type_unless_same_key_witness :
  supplies (with_headers token_headers) token_headers /\
  exists config outgoing,
    sends (apiRequest (failing failed_to_fetch) "/health" (with_headers token_headers))
      config /\
    headers config = Some (HeadersRecord outgoing) /\
    outgoing !! "X-Token" = Some (HeaderString "abc") /\
    outgoing !! "Content-Type" = Some (HeaderString "application/json").
Proof.
  split; [reflexivity |].
  destruct (default_content_type_unless_same_key
              (failing failed_to_fetch) "/health" (with_headers token_headers)
              token_headers eq_refl)
    as [config [outgoing [Hs [Hh [Hwins [Hdefault _]]]]]].
  exists config, outgoing. split; [exact Hs |]. split; [exact Hh |]. split.
  - apply Hwins. reflexivity.
  - apply Hdefault. reflexivity.
Defined.

(** C7 fails as stated: a caller's [content-type: text/plain] leaves the
    default under [Content-Type], a name that differs only in case, so the
    caller's value does not win under case-insensitive names. *)
Lemma lower_case_content_type_keeps_default :
  exists config outgoing,
    sends (apiRequest (failing failed_to_fetch) "/upload"
             (with_headers lower_case_headers)) config /\
    headers config = Some (HeadersRecord outgoing) /\
    outgoing !! "content-type" = Some (HeaderString "text/plain") /\
    outgoing !! "Content-Type" = Some (HeaderString "application/json") /\
    ~ caller_wins_ignoring_case lower_case_headers outgoing.
Proof.
  eexists. eexists. split; [eexists; reflexivity |].
  split; [reflexivity |]. split; [reflexivity |]. split; [reflexivity |].
  intros H.
  specialize (H "content-type" "Content-Type"
                (HeaderString "text/plain") (HeaderString "application/json")
                eq_refl eq_refl eq_refl).
  discriminate H.
Qed.

(** C10 at a 500 whose body is the JSON text [null]: reading [detail] throws
    before any [ApiError] exists, the handler wraps the [TypeError], and the
    error raised has status 0 instead of 500. *)
Lemma null_error_body_loses_status :
  Response.ok {| Response.status := 500; Response.json := Decoded (@JNull Z) |} = false /\
  raises (apiRequest (answering 500 (Decoded JNull)) "/items" None)
    {| name := "ApiError";
       message := "Cannot read properties of null (reading 'detail')";
       status := 0; data := None |}.
Proof. split; reflexivity. Qed.

(** * Further properties of the client *)

Section Outcomes.

Context {number : Type} `{RT : Runtime number}.
Implicit Types fetch : string -> RequestInit -> fetch_outcome number.

(** The calls of a run, by what [fetch] answered. *)
Lemma apiRequest_trace fetch endpoint options :
  trace (apiRequest fetch endpoint options) =
    match fetch (url_of endpoint) (config_of options) with
    | Fulfilled r =>
        if (Response.status r =? 204)%N
        then [EvFetch (url_of endpoint) (config_of options)]
        else [EvFetch (url_of endpoint) (config_of options); EvJson r]
    | Rejects _ => [EvFetch (url_of endpoint) (config_of options)]
    end.
Proof.
  destruct (fetch (url_of endpoint) (config_of options)) as [r | h] eqn:Hf.
  - destruct (N.eqb_spec (Response.status r) 204) as [Hs | Hs].
    + rewrite (apiRequest_no_content _ _ _ _ Hf Hs). reflexivity.
    + destruct (Response.ok r) eqn:Hok.
      * apply ok_range in Hok.
        rewrite (apiRequest_ok _ _ _ _ Hf Hok Hs). reflexivity.
      * apply not_ok_range in Hok.
        rewrite (apiRequest_not_ok _ _ _ _ Hf Hok). reflexivity.
  - rewrite (apiRequest_rejected _ _ _ _ Hf). reflexivity.
Qed.

(** A run calls [fetch] once and never again, and decodes at most one body:
    that of the response [fetch] gave, and only when its status is not 204.
    After a rejection of [fetch] nothing is decoded. *)
Theorem one_fetch_and_at_most_one_decode fetch endpoint options :
  requests (trace (apiRequest fetch endpoint options)) =
    [(url_of endpoint, config_of options)] /\
  (decodes (trace (apiRequest fetch endpoint options)) = [] \/
   exists r,
     fetch (url_of endpoint) (config_of options) = Fulfilled r /\
     Response.status r <> 204%N /\
     decodes (trace (apiRequest fetch endpoint options)) = [r]).
Proof.
  rewrite apiRequest_trace.
  destruct (fetch (url_of endpoint) (config_of options)) as [r | h] eqn:Hf.
  - destruct (N.eqb_spec (Response.status r) 204) as [Hs | Hs]; cbn.
    + auto.
    + split; [reflexivity |]. right. exists r. auto.
  - cbn. auto.
Qed.

(** A request resolves only on a response of status 200-299: to the empty
    object on 204, and otherwise to what the body decoded to.  It never
    resolves after a transport failure, on another status, or on a body that
    does not decode. *)
Theorem request_resolves_only_on_ok_response fetch endpoint options v :
  resolves (apiRequest fetch endpoint options) v ->
  exists r,
    fetch (url_of endpoint) (config_of options) = Fulfilled r /\
    (200 <= Response.status r <= 299)%N /\
    (Response.status r = 204%N /\ v = JObj [] \/
     Response.status r <> 204%N /\ Response.json r = Decoded v).
Proof.
  unfold resolves. intros Hv.
  destruct (fetch (url_of endpoint) (config_of options)) as [r | h] eqn:Hf.
  - exists r. split; [reflexivity |].
    destruct (Response.ok r) eqn:Hok.
    + apply ok_range in Hok. split; [exact Hok |].
      destruct (N.eq_dec (Response.status r) 204%N) as [Hs | Hs].
      * rewrite (apiRequest_no_content _ _ _ _ Hf Hs) in Hv.
        injection Hv as <-. auto.
      * rewrite (apiRequest_ok _ _ _ _ Hf Hok Hs) in Hv. cbn in Hv.
        destruct (Response.json r); [| discriminate Hv].
        injection Hv as <-. auto.
    + exfalso. apply not_ok_range in Hok.
      rewrite (apiRequest_not_ok _ _ _ _ Hf Hok) in Hv. cbn in Hv.
      destruct (error_data r);
        try match type of Hv with
            | context [ToString ?m] => destruct (ToString m)
            end; discriminate Hv.
  - rewrite (apiRequest_rejected _ _ _ _ Hf) in Hv. discriminate Hv.
Qed.

(** The status of a raised error is 0 or the status of the response received,
    which was then outside 200-299: no error ever carries a 2xx status. *)
Theorem raised_status_is_never_2xx fetch endpoint options e :
  raises (apiRequest fetch endpoint options) e ->
  ~ (200 <= status e <= 299)%N /\
  (status e = 0%N \/
   exists r,
     fetch (url_of endpoint) (config_of options) = Fulfilled r /\
     status e = Response.status r).
Proof.
  unfold raises. intros He.
  destruct (fetch (url_of endpoint) (config_of options)) as [r | h] eqn:Hf.
  - destruct (Response.ok r) eqn:Hok.
    + apply ok_range in Hok.
      destruct (N.eq_dec (Response.status r) 204%N) as [Hs | Hs].
      * rewrite (apiRequest_no_content _ _ _ _ Hf Hs) in He. discriminate He.
      * rewrite (apiRequest_ok _ _ _ _ Hf Hok Hs) in He. cbn in He.
        destruct (Response.json r); [discriminate He |].
        injection He as <-. cbn. split; [lia | auto].
    + apply not_ok_range in Hok.
      rewrite (apiRequest_not_ok _ _ _ _ Hf Hok) in He. cbn in He.
      destruct (error_data r);
        try match type of He with
            | context [ToString ?m] => destruct (ToString m)
            end; injection He as <-; cbn;
        first [split; [lia | auto; fail] | split; [exact Hok | eauto]].
  - rewrite (apiRequest_rejected _ _ _ _ Hf) in He.
    injection He as <-. cbn. split; [lia | auto].
Qed.

(** A response outside 200-299 loses its status when no [ApiError] can be
    built from its body: when the body decodes to [null], or when its
    [detail] is truthy and cannot be converted to a string.  The error raised
    then has status 0 and no payload. *)
Theorem unusable_error_body_raises_status_zero fetch endpoint options r :
  fetch (url_of endpoint) (config_of options) = Fulfilled r ->
  ~ (200 <= Response.status r <= 299)%N ->
  (Response.json r = Decoded JNull \/
   exists payload detail,
     Response.json r = Decoded payload /\
     detail_field payload = Some detail /\
     ToBoolean detail = true /\ ToString detail = None) ->
  exists e,
    raises (apiRequest fetch endpoint options) e /\
    status e = 0%N /\ data e = None.
Proof.
  intros Hf Hok Hbody. unfold raises.
  rewrite (apiRequest_not_ok _ _ _ _ Hf Hok). unfold error_data.
  destruct Hbody as [-> | [payload [detail [-> [Hd [Ht Hs]]]]]].
  - eexists. cbn. split; [reflexivity | auto].
  - destruct payload; try discriminate Hd.
    unfold or_else. rewrite Hd, Ht, Hs. eexists. cbn.
    split; [reflexivity | auto].
Qed.

End Outcomes.

Section Requests.

Context {number : Type} `{RT : Runtime number}.
Implicit Types fetch : string -> RequestInit -> fetch_outcome number.

(** Every wrapper asks for the base URL followed by the endpoint as it was
    given; the base is [NEXT_PUBLIC_API_URL], and [http://localhost:8000]
    when that variable is unset or empty. *)
Theorem wrappers_request_base_url_then_endpoint fetch endpoint data options :
  exists base,
    (NEXT_PUBLIC_API_URL = None \/ NEXT_PUBLIC_API_URL = Some "" ->
       base = "http://localhost:8000") /\
    (forall s, NEXT_PUBLIC_API_URL = Some s -> s <> "" -> base = s) /\
    map fst (requests (trace (get fetch endpoint options))) = [base +:+ endpoint] /\
    map fst (requests (trace (post fetch endpoint data options))) = [base +:+ endpoint] /\
    map fst (requests (trace (put fetch endpoint data options))) = [base +:+ endpoint] /\
    map fst (requests (trace (patch fetch endpoint data options))) = [base +:+ endpoint] /\
    map fst (requests (trace (del fetch endpoint options))) = [base +:+ endpoint].
Proof.
  exists API_BASE_URL. split; [| split].
  - unfold API_BASE_URL. intros [-> | ->]; reflexivity.
  - unfold API_BASE_URL. intros s -> Hs.
    destruct (String.eqb_spec s ""); [contradiction | reflexivity].
  - unfold get, post, put, patch, del.
    rewrite !apiRequest_requests. repeat split; reflexivity.
Qed.

(** What the caller's options become.  [get] and [del] forward the caller's
    body; [post], [put] and [patch] send the same request whatever body the
    options hold, so that body is never sent; the members the client does not
    name reach [fetch] unchanged through all five. *)
Theorem caller_options_through_wrappers fetch endpoint data o :
  exists by_get by_del by_post by_put by_patch,
    sends (get fetch endpoint (Some o)) by_get /\
    sends (del fetch endpoint (Some o)) by_del /\
    sends (post fetch endpoint data (Some o)) by_post /\
    sends (put fetch endpoint data (Some o)) by_put /\
    sends (patch fetch endpoint data (Some o)) by_patch /\
    body by_get = body o /\ body by_del = body o /\
    (forall b,
       sends (post fetch endpoint data (Some (set_body b o))) by_post /\
       sends (put fetch endpoint data (Some (set_body b o))) by_put /\
       sends (patch fetch endpoint data (Some (set_body b o))) by_patch) /\
    others by_get = others o /\ others by_del = others o /\
    others by_post = others o /\ others by_put = others o /\
    others by_patch = others o.
Proof.
  do 5 eexists. repeat (split; [apply apiRequest_sends |]).
  split; [reflexivity |]. split; [reflexivity |]. split.
  - intros b. repeat split; eexists;
      unfold post, put, patch; rewrite apiRequest_requests; reflexivity.
  - repeat split; reflexivity.
Qed.

(** Building the [config] of a [config] changes nothing: the default header
    is added once. *)
Theorem request_config_idempotent (o : RequestInit) :
  request_config (request_config o) = request_config o.
Proof.
  unfold request_config, set_headers. cbn. do 3 f_equal.
  apply map_eq. intros k. rewrite !lookup_union.
  destruct (spread_headers (headers o) !! k), (defaultHeaders !! k); reflexivity.
Qed.

(** Headers handed over as a [Headers] instance do not reach [fetch]: the
    outgoing record is the default header alone. *)
Theorem headers_instance_is_dropped fetch endpoint options entries :
  headers (spread_init options) = Some (HeadersInstance entries) ->
  exists config,
    sends (apiRequest fetch endpoint options) config /\
    headers config =
      Some (HeadersRecord {[ "Content-Type" := HeaderString "application/json" ]}).
Proof.
  intros Hh. exists (config_of options). split; [apply apiRequest_sends |].
  unfold config_of, request_config. cbn. rewrite Hh. cbn.
  rewrite (left_id_L ∅ (∪)). reflexivity.
Qed.

End Requests.

Section HeaderPairs.

Context {number : Type} `{RT : Runtime number}.
Implicit Types fetch : string -> RequestInit -> fetch_outcome number.

Lemma decimal_parses (n : N) :
  NilZero.uint_of_string (decimal n) = Some (N.to_uint n).
Proof.
  unfold decimal. apply NilZero.usu.
  destruct n as [| p]; [discriminate | apply Unsigned.to_uint_nonnil].
Qed.

Lemma decimal_inj (a b : N) : decimal a = decimal b -> a = b.
Proof.
  intros H. pose proof (decimal_parses a) as Ha. rewrite H, decimal_parses in Ha.
  injection Ha as Ha.
  rewrite <- (DecimalN.Unsigned.of_to a), <- (DecimalN.Unsigned.of_to b), Ha.
  reflexivity.
Qed.

Lemma decimal_is_not_Content_Type (n : N) : decimal n <> "Content-Type".
Proof.
  intros H. pose proof (decimal_parses n) as Hn. rewrite H in Hn.
  discriminate Hn.
Qed.

Lemma spread_pairs_lookup pairs :
  forall (n : N) (i : nat) k v,
    pairs !! i = Some (k, v) ->
    spread_pairs n pairs !! decimal (n + N.of_nat i) = Some (HeaderPair k v).
Proof.
  induction pairs as [| [k0 v0] rest IH]; intros n i k v Hi; [discriminate Hi |].
  destruct i as [| j]; cbn in *.
  - injection Hi as -> ->. rewrite N.add_0_r. apply lookup_insert_eq.
  - rewrite lookup_insert_ne.
    + replace (n + N.of_nat (S j))%N with (N.succ n + N.of_nat j)%N by lia.
      apply IH. exact Hi.
    + intros H. apply decimal_inj in H. lia.
Qed.

Lemma spread_pairs_no_Content_Type pairs :
  forall n : N, spread_pairs n pairs !! "Content-Type" = None.
Proof.
  induction pairs as [| [k0 v0] rest IH]; intros n; cbn.
  - apply lookup_empty.
  - rewrite lookup_insert_ne by apply decimal_is_not_Content_Type. apply IH.
Qed.

(** Headers handed over as an array of pairs are not read as headers: each
    pair lands whole under its index, and the default [Content-Type] stays
    whatever the pairs name. *)
Theorem header_pairs_land_under_their_indices fetch endpoint options pairs :
  headers (spread_init options) = Some (HeadersPairs pairs) ->
  exists config outgoing,
    sends (apiRequest fetch endpoint options) config /\
    headers config = Some (HeadersRecord outgoing) /\
    outgoing !! "Content-Type" = Some (HeaderString "application/json") /\
    forall (i : nat) k v,
      pairs !! i = Some (k, v) ->
      outgoing !! decimal (N.of_nat i) = Some (HeaderPair k v).
Proof.
  intros Hh. exists (config_of options), (spread_pairs 0 pairs ∪ defaultHeaders).
  split; [apply apiRequest_sends |]. split; [| split].
  - unfold config_of, request_config. cbn. rewrite Hh. reflexivity.
  - rewrite lookup_union_r by apply spread_pairs_no_Content_Type. reflexivity.
  - intros i k v Hi. apply lookup_union_Some_l.
    apply (spread_pairs_lookup pairs 0%N i k v Hi).
Qed.

End HeaderPairs.

Section DetailLists.

Context {number : Type} `{RT : Runtime number}.
Implicit Types fetch : string -> RequestInit -> fetch_outcome number.

Lemma ToString_plain_objects (items : list (json number)) :
  Forall plain_object items ->
  ToString (JArr items) = Some (comma_separated "[object Object]" (length items)).
Proof.
  induction 1 as [| x rest Hx Hrest IH]; [reflexivity |].
  destruct Hx as [members [-> Hm]].
  cbn in *. rewrite Hm.
  destruct rest as [| y rest']; [reflexivity |].
  cbn in IH. rewrite IH. reflexivity.
Qed.

(** A [detail] that is a list of objects, as a validation error reports it,
    gives a message that shows none of it: the text [[object Object]] once
    per item, separated by commas.  Status and payload are kept. *)
Theorem detail_list_of_objects_gives_placeholder_message
    fetch endpoint options r payload items :
  fetch (url_of endpoint) (config_of options) = Fulfilled r ->
  ~ (200 <= Response.status r <= 299)%N ->
  Response.json r = Decoded payload ->
  detail_field payload = Some (JArr items) ->
  Forall plain_object items ->
  raises (apiRequest fetch endpoint options)
    {| name := "ApiError";
       message := comma_separated "[object Object]" (length items);
       status := Response.status r;
       data := Some payload |}.
Proof.
  intros Hf Hok Hj Hd Hitems. unfold raises.
  rewrite (apiRequest_not_ok _ _ _ _ Hf Hok). unfold error_data. rewrite Hj.
  destruct payload; try discriminate Hd.
  unfold or_else. rewrite Hd. cbn [ToBoolean].
  rewrite (ToString_plain_objects items Hitems). reflexivity.
Qed.

End DetailLists.

(** * The status component *)

Section StatusComponent.

Context {number : Type} `{RT : Runtime number}.
Implicit Types fetch : string -> RequestInit -> fetch_outcome number.
Implicit Types s : ApiStatus.state number.

(** What [checkApiHealth] leaves, by how the request ended. *)
Lemma checkApiHealth_state fetch s :
  snd (ApiStatus.checkApiHealth fetch s) =
    match outcome (get fetch "/health" None) with
    | inr data =>
        {| ApiStatus.health := data; ApiStatus.loading := false;
           ApiStatus.error := None |}
    | inl err =>
        {| ApiStatus.health := JNull; ApiStatus.loading := false;
           ApiStatus.error := Some (ApiStatus.describe err) |}
    end.
Proof.
  unfold ApiStatus.checkApiHealth. cbn.
  destruct (outcome (get fetch "/health" None)); reflexivity.
Qed.

(** The health check overwrites all three pieces of state, whatever they
    were.  It ends with [loading] off, and with either the decoded answer and
    no error, or no answer and the error text
    "API error: <message> (Status: <status>)" of the [ApiError] raised.  The
    two other texts of its [catch] clause are never stored, since the client
    raises nothing but [ApiError]. *)
Theorem health_check_settles_the_state fetch s :
  let s' := snd (ApiStatus.checkApiHealth fetch s) in
  ApiStatus.loading s' = false /\
  ((exists data,
      resolves (get fetch "/health" None) data /\
      ApiStatus.health s' = data /\ ApiStatus.error s' = None) \/
   (exists e,
      raises (get fetch "/health" None) e /\
      ApiStatus.health s' = JNull /\
      ApiStatus.error s' =
        Some ("API error: " +:+ message e +:+ " (Status: " +:+
              decimal (status e) +:+ ")"))).
Proof.
  cbn zeta. rewrite checkApiHealth_state. unfold resolves, raises.
  destruct (outcome (get fetch "/health" None)) as [err | data] eqn:Ho.
  - destruct (apiRequest_throws_ApiError _ _ _ _ Ho) as [e [-> _]].
    split; [reflexivity |]. right. exists e. auto.
  - split; [reflexivity |]. left. exists data. auto.
Qed.


(** The health check sends one request and no more: a [GET] of
    [<base>/health], without a body, with the default header alone. *)
Theorem health_check_sends_one_get fetch s :
  exists config,
    requests (fst (ApiStatus.checkApiHealth fetch s)) =
      [(API_BASE_URL +:+ "/health", config)] /\
    method config = Some "GET" /\
    body config = None /\
    headers config =
      Some (HeadersRecord {[ "Content-Type" := HeaderString "application/json" ]}).
Proof.
  eexists. split.
  - unfold ApiStatus.checkApiHealth, get. cbn [fst].
    rewrite apiRequest_requests. reflexivity.
  - cbn. rewrite (left_id_L ∅ (∪)). auto.
Qed.

(** Colour and icon of a status always agree: green with the check mark for
    [connected], [healthy] and [initialized], yellow with the warning sign
    for [unavailable], red with the cross for every other text, including
    the same words in another case. *)
Theorem status_colour_and_icon_agree (status : string) :
  (In status ["connected"; "healthy"; "initialized"] /\
   ApiStatus.getStatusColor status = "text-green-600 dark:text-green-400" /\
   ApiStatus.getStatusIcon status = "✓") \/
  (status = "unavailable" /\
   ApiStatus.getStatusColor status = "text-yellow-600 dark:text-yellow-400" /\
   ApiStatus.getStatusIcon status = "⚠") \/
  (~ In status ["connected"; "healthy"; "initialized"; "unavailable"] /\
   ApiStatus.getStatusColor status = "text-red-600 dark:text-red-400" /\
   ApiStatus.getStatusIcon status = "✗").
Proof.
  unfold ApiStatus.getStatusColor, ApiStatus.getStatusIcon.
  destruct (String.eqb_spec status "connected") as [-> | H1];
    [left; cbn; auto |].
  destruct (String.eqb_spec status "healthy") as [-> | H2];
    [left; cbn; auto |].
  destruct (String.eqb_spec status "initialized") as [-> | H3];
    [left; cbn; auto |].
  destruct (String.eqb_spec status "unavailable") as [-> | H4];
    [right; left; cbn; auto |].
  right; right. cbn. split; [| auto]. intros [E | [E | [E | [E | []]]]]; congruence.
Qed.

End StatusComponent.

(** * The further properties at work *)

(** The component after an unreachable service. *)
Example status_component_unreachable :
  ApiStatus.render
    (snd (ApiStatus.checkApiHealth (failing failed_to_fetch) ApiStatus.initial)) =
    ApiStatus.Unreachable "API error: Failed to fetch (Status: 0)"
      "http://localhost:8000".
Proof. reflexivity. Qed.

(** The component after a healthy answer. *)
Example status_component_healthy :
  ApiStatus.render
    (snd (ApiStatus.checkApiHealth (answering 200 (Decoded health_report))
            ApiStatus.initial)) =
    ApiStatus.Status health_report.
Proof. reflexivity. Qed.

Lemma request_resolves_only_on_ok_response_witness :
  resolves (apiRequest (answering 201 (Decoded user_body)) "/users" None) user_body /\
  exists r,
    answering 201 (Decoded user_body) (url_of "/users") (config_of None) = Fulfilled r /\
    (200 <= Response.status r <= 299)%N /\
    (Response.status r = 204%N /\ user_body = JObj [] \/
     Response.status r <> 204%N /\ Response.json r = Decoded user_body).
Proof.
  split; [reflexivity |].
  apply (request_resolves_only_on_ok_response
           (answering 201 (Decoded user_body)) "/users" None user_body).
  reflexivity.
Defined.

Lemma raised_status_is_never_2xx_witness :
  raises (apiRequest (answering 404 (Decoded not_found_body)) "/missing" None)
    {| name := "ApiError"; message := "Not found"; status := 404;
       data := Some not_found_body |} /\
  ~ (200 <= 404 <= 299)%N.
Proof.
  split; [reflexivity |].
  apply (raised_status_is_never_2xx
           (answering 404 (Decoded not_found_body)) "/missing" None
           {| name := "ApiError"; message := "Not found"; status := 404;
              data := Some not_found_body |}).
  reflexivity.
Defined.

Lemma unusable_error_body_raises_status_zero_witness :
  ~ (200 <= 422 <= 299)%N /\
  detail_field unconvertible_body = Some (JObj [("toString", JStr "x")]) /\
  exists e,
    raises (apiRequest (answering 422 (Decoded unconvertible_body)) "/users" None) e /\
    status e = 0%N /\ data e = None.
Proof.
  split; [lia |]. split; [reflexivity |].
  apply (unusable_error_body_raises_status_zero
           (answering 422 (Decoded unconvertible_body)) "/users" None
           {| Response.status := 422; Response.json := Decoded unconvertible_body |}).
  - reflexivity.
  - cbn. lia.
  - right. exists unconvertible_body, (JObj [("toString", JStr "x")]).
    repeat split; reflexivity.
Defined.

Lemma headers_instance_is_dropped_witness :
  exists config,
    sends (apiRequest (failing failed_to_fetch) "/health" instance_options) config /\
    headers config =
      Some (HeadersRecord {[ "Content-Type" := HeaderString "application/json" ]}).
Proof.
  apply (headers_instance_is_dropped
           (failing failed_to_fetch) "/health" instance_options
           [("Authorization", "Bearer t")]).
  reflexivity.
Defined.

Lemma header_pairs_land_under_their_indices_witness :
  exists config outgoing,
    sends (apiRequest (failing failed_to_fetch) "/upload" pairs_options) config /\
    headers config = Some (HeadersRecord outgoing) /\
    outgoing !! "Content-Type" = Some (HeaderString "application/json") /\
    outgoing !! "0" = Some (HeaderPair "Content-Type" "text/plain").
Proof.
  destruct (header_pairs_land_under_their_indices
              (failing failed_to_fetch) "/upload" pairs_options
              [("Content-Type", "text/plain")] eq_refl)
    as [config [outgoing [Hs [Hh [Hdefault Hpairs]]]]].
  exists config, outgoing. split; [exact Hs |]. split; [exact Hh |].
  split; [exact Hdefault |].
  apply (Hpairs 0%nat "Content-Type" "text/plain"). reflexivity.
Defined.

Lemma detail_list_of_objects_gives_placeholder_message_witness :
  ~ (200 <= 422 <= 299)%N /\
  Forall plain_object validation_items /\
  raises (apiRequest (answering 422 (Decoded validation_body)) "/users" None)
    {| name := "ApiError";
       message := "[object Object],[object Object]";
       status := 422;
       data := Some validation_body |}.
Proof.
  assert (Forall plain_object validation_items) as Hitems.
  { repeat constructor; eexists; (split; [reflexivity | reflexivity]). }
  split; [lia |]. split; [exact Hitems |].
  apply (detail_list_of_objects_gives_placeholder_message
           (answering 422 (Decoded validation_body)) "/users" None
           {| Response.status := 422; Response.json := Decoded validation_body |}
           validation_body validation_items).
  - reflexivity.
  - cbn. lia.
  - reflexivity.
  - reflexivity.
  - exact Hitems.
Defined.
